(** * oil-finder: VIN decoding and oil recommendation

    A shallow embedding of the [mb_oil_finder] package
    ([exceptions.py], [models.py], [vin_decoder.py], [oil_finder.py])
    and the properties its specification states about it.

    Conventions of the embedding:
    - a Python [str] is a [string], a sequence of characters of type
      [ascii]; [len] is [String.length], which counts characters; the
      code compares characters for equality and cuts strings by position
      only, so nothing depends on how a character is encoded;
    - a method that may raise returns a [result], whose [Raise] carries the
      exception (its class and its message);
    - the class attributes a method reads through [self] are the fields of
      a record for [self]; the classes themselves are the records
      [VINDecoder_cls] and [OilFinder_cls]. *)

From Stdlib Require Import ZArith String Ascii List PrimFloat.
From stdpp Require Import gmap strings list fin_maps.

Local Open Scope string_scope.

(** ** exceptions.py *)

Inductive exn_class :=
| Exception
| LookupError
| KeyError
| TypeError
| MBOilFinderError
| VINDecoderError
| InvalidVINError
| UnsupportedVehicleError
| OilFinderError
| NoOilRecommendationError
| EngineDataError.

#[global] Instance exn_class_eq_dec : EqDecision exn_class.
Proof. solve_decision. Defined.

(** The base named in each [class] statement; for the built-in classes,
    the base they have in Python. *)
Definition base_of (c : exn_class) : option exn_class :=
  match c with
  | Exception => None
  | LookupError | TypeError => Some Exception
  | KeyError => Some LookupError
  | MBOilFinderError => Some Exception
  | VINDecoderError => Some MBOilFinderError
  | InvalidVINError => Some VINDecoderError
  | UnsupportedVehicleError => Some VINDecoderError
  | OilFinderError => Some MBOilFinderError
  | NoOilRecommendationError => Some OilFinderError
  | EngineDataError => Some MBOilFinderError
  end.

(** [issubclass c d]: [d] is [c] or one of its ancestors, which is what
    an [except d] clause tests.  The hierarchy is four levels deep, so
    four steps reach the root. *)
Fixpoint issubclass_fuel (n : nat) (c d : exn_class) : bool :=
  bool_decide (c = d) ||
  match n with
  | O => false
  | S n' => match base_of c with
            | Some b => issubclass_fuel n' b d
            | None => false
            end
  end.

Definition issubclass : exn_class → exn_class → bool := issubclass_fuel 4.

(** A raised exception: its class and its message. *)
Record exn := Exn { exn_cls : exn_class; exn_msg : string }.

(** ** Results of calls that may raise *)

Inductive result (A : Type) :=
| Ok (a : A)
| Raise (e : exn).
Arguments Ok {A} a.
Arguments Raise {A} e.

#[global] Instance result_ret : MRet result := @Ok.
#[global] Instance result_bind : MBind result := λ A B f m,
  match m with
  | Ok a => f a
  | Raise e => Raise e
  end.

#[global] Instance result_fmap : FMap result := λ A B f m,
  match m with
  | Ok a => Ok (f a)
  | Raise e => Raise e
  end.

(** [m] raises an exception of exactly the class [c]. *)
Definition raises {A} (m : result A) (c : exn_class) : Prop :=
  ∃ msg, m = Raise (Exn c msg).

(** ** models.py *)

Record EngineData := {
  code : string;
  type : string;
  family : string;
  description : string;
  displacement : float;
  cylinders : Z;
  fuel_type : string
}.

Record OilSpecification := {
  mb_approval : string;
  viscosity : string;
  oil_type : string;          (* the field [type] of OilSpecification *)
  oil_description : string    (* the field [description] of OilSpecification *)
}.

#[global] Instance OilSpecification_eq_dec : EqDecision OilSpecification.
Proof. solve_decision. Defined.

Record OilRecommendation := {
  primary : OilSpecification;
  alternatives : list OilSpecification
}.

Record VINData := {
  vin : string;
  manufacturer : string;
  model_series : string;
  engine_code : string;
  model_details : string;
  model_year : string;
  plant_code : string;
  serial_number : string;
  engine : option EngineData
}.

(** ** Python built-ins used by the package *)

(** The argument a caller may hand to [validate_vin]: the annotation says
    [str], the body tests it with [isinstance]. *)
Inductive pyobj :=
| PyStr (s : string)
| PyNone
| PyInt (n : Z)
| PyBool (b : bool).

(** [any(p(c) for c in s)] *)
Fixpoint str_any (p : ascii → bool) (s : string) : bool :=
  match s with
  | EmptyString => false
  | String c s' => p c || str_any p s'
  end.

(** [c in t] for a one-character [c]. *)
Definition char_in (c : ascii) (t : string) : bool :=
  str_any (λ d, bool_decide (d = c)) t.

(** A bound of [s[start:stop]]: a negative index counts from the end, and
    both are clamped to [0 .. len]. *)
Definition slice_index (len i : Z) : Z :=
  if (i <? 0)%Z then Z.max 0 (i + len) else Z.min i len.

(** [s[start:stop]] *)
Definition slice (s : string) (start stop : Z) : string :=
  let len := Z.of_nat (String.length s) in
  let a := slice_index len start in
  let b := slice_index len stop in
  substring (Z.to_nat a) (Z.to_nat (b - a)) s.

(** [d[k]]: a missing key raises [KeyError]. *)
Definition getitem {V} (d : gmap string V) (k : string) : result V :=
  match d !! k with
  | Some v => Ok v
  | None => Raise (Exn KeyError k)
  end.

(** ** vin_decoder.py *)

Record VINDecoder := {
  MB_MANUFACTURER_CODES : gset string;
  VIN_STRUCTURE : list (string * (Z * Z));
  ENGINE_CODES : gmap string EngineData
}.

#[warnings="-inexact-float"]
Definition engine_42 : EngineData := {|
  code := "42";
  type := "OM651";
  family := "Diesel";
  description := "2.1L 4-cylinder diesel engine";
  displacement := 2.1%float;
  cylinders := 4;
  fuel_type := "Diesel"
|}.

Definition engine_64 : EngineData := {|
  code := "64";
  type := "M276";
  family := "Gasoline";
  description := "3.5L V6 gasoline engine";
  displacement := 3.5%float;
  cylinders := 6;
  fuel_type := "Gasoline"
|}.

(** The class attributes of [VINDecoder]. *)
Definition VINDecoder_cls : VINDecoder := {|
  MB_MANUFACTURER_CODES := {[ "WDD"; "WDB"; "WDC"; "WMX"; "4JG" ]};
  VIN_STRUCTURE := [
    ("manufacturer", (0, 3)%Z);
    ("model_series", (3, 6)%Z);
    ("engine_code", (6, 8)%Z);
    ("model_details", (8, 9)%Z);
    ("model_year", (9, 10)%Z);
    ("plant_code", (10, 11)%Z);
    ("serial_number", (11, 17)%Z)
  ];
  ENGINE_CODES := <["42" := engine_42]> (<["64" := engine_64]> ∅)
|}.

Definition msg_not_a_string : string := "VIN must be a non-empty string".
Definition msg_length : string := "VIN must be 17 characters long".
Definition msg_characters : string :=
  "VIN contains invalid characters: I, O, or Q are not allowed".
Definition msg_manufacturer (manufacturer_code : string) : string :=
  "Not a recognized Mercedes-Benz VIN: " ++ manufacturer_code.

(** [validate_vin]: [not vin or not isinstance(vin, str)] holds of every
    object that is not a [str] and, among the [str], of the empty one. *)
Definition validate_vin (self : VINDecoder) (vin : pyobj) : result bool :=
  match vin with
  | PyStr s =>
    if bool_decide (s = "") then Raise (Exn InvalidVINError msg_not_a_string)
    else if negb (String.length s =? 17)%nat then
      Raise (Exn InvalidVINError msg_length)
    else if str_any (λ c, char_in c "IOQ") s then
      Raise (Exn InvalidVINError msg_characters)
    else
      let manufacturer_code := slice s 0 3 in
      if negb (bool_decide (manufacturer_code ∈ MB_MANUFACTURER_CODES self)) then
        Raise (Exn UnsupportedVehicleError (msg_manufacturer manufacturer_code))
      else Ok true
  | _ => Raise (Exn InvalidVINError msg_not_a_string)
  end.

(** [_get_engine_data]: [dict.get], which returns [None] for a missing
    key and does not raise. *)
Definition _get_engine_data (self : VINDecoder) (engine_code : string)
  : result (option EngineData) :=
  Ok (ENGINE_CODES self !! engine_code).

(** The loop of [decode_vin] that fills [components]. *)
Definition components_of (self : VINDecoder) (s : string) : gmap string string :=
  foldl (λ components '(name, (start, stop)), <[name := slice s start stop]> components)
        ∅ (VIN_STRUCTURE self).

(** [decode_vin]: the arguments of [VINData(...)] are evaluated in the
    order they are written, after the engine lookup.  Only a [str] gets
    past [validate_vin]; slicing any other object would be a [TypeError]. *)
Definition decode_vin (self : VINDecoder) (vin : pyobj) : result VINData :=
  _ ← validate_vin self vin;
  match vin with
  | PyStr s =>
    let components := components_of self s in
    ec ← getitem components "engine_code";
    engine_data ← _get_engine_data self ec;
    c_manufacturer ← getitem components "manufacturer";
    c_model_series ← getitem components "model_series";
    c_engine_code ← getitem components "engine_code";
    c_model_details ← getitem components "model_details";
    c_model_year ← getitem components "model_year";
    c_plant_code ← getitem components "plant_code";
    c_serial_number ← getitem components "serial_number";
    Ok {| vin := s;
          manufacturer := c_manufacturer;
          model_series := c_model_series;
          engine_code := c_engine_code;
          model_details := c_model_details;
          model_year := c_model_year;
          plant_code := c_plant_code;
          serial_number := c_serial_number;
          engine := engine_data |}
  | _ => Raise (Exn TypeError "object is not subscriptable")
  end.

(** ** oil_finder.py *)

(** An entry of [ENGINE_OIL_MAPPING]: a dict with the two keys ["primary"]
    and ["alternatives"].  It is never empty, so [not mapping] holds only
    of the [None] that [dict.get] returns for a missing engine type. *)
Record OilPolicy := {
  primary_code : string;
  alternative_codes : list string
}.

Record OilFinder := {
  OIL_SPECIFICATIONS : gmap string OilSpecification;
  ENGINE_OIL_MAPPING : gmap string OilPolicy
}.

Definition spec_229_1 : OilSpecification := {|
  mb_approval := "229.1";
  viscosity := "10W-40";
  oil_type := "Semi-synthetic";
  oil_description := "Basic specification for gasoline and diesel engines"
|}.

Definition spec_229_3 : OilSpecification := {|
  mb_approval := "229.3";
  viscosity := "5W-40";
  oil_type := "Synthetic";
  oil_description := "High-performance specification for gasoline and diesel engines"
|}.

Definition spec_229_5 : OilSpecification := {|
  mb_approval := "229.5";
  viscosity := "5W-30";
  oil_type := "Synthetic";
  oil_description := "Advanced specification for extended drain intervals"
|}.

Definition spec_229_51 : OilSpecification := {|
  mb_approval := "229.51";
  viscosity := "5W-30";
  oil_type := "Synthetic";
  oil_description := "Low SAPS oil for diesel engines with particulate filters"
|}.

(** The class attributes of [OilFinder]. *)
Definition OilFinder_cls : OilFinder := {|
  OIL_SPECIFICATIONS :=
    <["229.1" := spec_229_1]> (<["229.3" := spec_229_3]>
      (<["229.5" := spec_229_5]> (<["229.51" := spec_229_51]> ∅)));
  ENGINE_OIL_MAPPING :=
    <["OM651" := {| primary_code := "229.51";
                    alternative_codes := ["229.5"; "229.3"] |}]>
      (<["M276" := {| primary_code := "229.5";
                      alternative_codes := ["229.3"] |}]> ∅)
|}.

Definition msg_invalid_engine : string := "Invalid engine data".
Definition msg_no_recommendation (engine_type : string) : string :=
  "No oil recommendation for engine type: " ++ engine_type.
Definition msg_primary_not_found (approval : string) : string :=
  "Primary oil specification not found: " ++ approval.
Definition msg_no_engine : string :=
  "VIN data does not contain engine information".

(** The loop of [find_oil_by_engine] over [mapping["alternatives"]]: a
    specification (a dataclass instance, always truthy) is appended when
    [dict.get] finds one. *)
Definition collect_alternatives (self : OilFinder) (codes : list string)
  : list OilSpecification :=
  foldl (λ alternative_specs alt_code,
           match OIL_SPECIFICATIONS self !! alt_code with
           | Some alt_spec => (alternative_specs ++ [alt_spec])%list
           | None => alternative_specs
           end)
        [] codes.

(** [find_oil_by_engine]; [engine_data] may be [None]. *)
Definition find_oil_by_engine (self : OilFinder) (engine_data : option EngineData)
  : result OilRecommendation :=
  match engine_data with
  | None => Raise (Exn NoOilRecommendationError msg_invalid_engine)
  | Some e =>
    if bool_decide (type e = "") then
      Raise (Exn NoOilRecommendationError msg_invalid_engine)
    else
      match ENGINE_OIL_MAPPING self !! type e with
      | None =>
        Raise (Exn NoOilRecommendationError (msg_no_recommendation (type e)))
      | Some mapping =>
        match OIL_SPECIFICATIONS self !! primary_code mapping with
        | None =>
          Raise (Exn NoOilRecommendationError
                     (msg_primary_not_found (primary_code mapping)))
        | Some primary_spec =>
          let alternative_specs :=
            collect_alternatives self (alternative_codes mapping) in
          Ok {| primary := primary_spec; alternatives := alternative_specs |}
        end
      end
  end.

(** [find_oil_by_vin]; [vin_data] may be [None]. *)
Definition find_oil_by_vin (self : OilFinder) (vin_data : option VINData)
  : result OilRecommendation :=
  match vin_data with
  | None => Raise (Exn NoOilRecommendationError msg_no_engine)
  | Some v =>
    match engine v with
    | None => Raise (Exn NoOilRecommendationError msg_no_engine)
    | Some e => find_oil_by_engine self (Some e)
    end
  end.

(** ** Vocabulary of the specification *)

(** The three characters a VIN may not contain. *)
Definition forbidden (c : ascii) : Prop :=
  c = "I"%char ∨ c = "O"%char ∨ c = "Q"%char.

#[global] Instance forbidden_dec c : Decision (forbidden c).
Proof. unfold forbidden. apply _. Defined.

(** The characters of a string, first to last. *)
Definition chars (s : string) : list ascii := list_ascii_of_string s.

(** An approval table is keyed by approval when every specification is
    stored under its own [mb_approval]. *)
Definition keyed_by_approval (self : OilFinder) : Prop :=
  ∀ c s, OIL_SPECIFICATIONS self !! c = Some s → mb_approval s = c.

(** The policies list no alternative twice and never the primary. *)
Definition policies_distinct (self : OilFinder) : Prop :=
  ∀ t p, ENGINE_OIL_MAPPING self !! t = Some p →
         NoDup (alternative_codes p) ∧ primary_code p ∉ alternative_codes p.

(** ** Objects for the examples *)

(** An [OilFinder] whose policies name approvals the table lacks: the
    primary of ["OM999"], and two alternatives of ["M999"]. *)
Definition OilFinder_incomplete : OilFinder := {|
  OIL_SPECIFICATIONS := OIL_SPECIFICATIONS OilFinder_cls;
  ENGINE_OIL_MAPPING :=
    <["OM999" := {| primary_code := "229.52";
                    alternative_codes := ["229.5"] |}]>
      (<["M999" := {| primary_code := "229.5";
                      alternative_codes := ["229.31"; "229.3"; "229.99"; "229.1"] |}]>
         (ENGINE_OIL_MAPPING OilFinder_cls))
|}.

(** An [OilFinder] whose policy repeats an alternative and lists its
    primary among them. *)
Definition OilFinder_repeating : OilFinder := {|
  OIL_SPECIFICATIONS := OIL_SPECIFICATIONS OilFinder_cls;
  ENGINE_OIL_MAPPING :=
    <["M276" := {| primary_code := "229.5";
                   alternative_codes := ["229.3"; "229.5"; "229.3"] |}]> ∅
|}.

Definition engine_of_type (engine_type : string) : EngineData := {|
  code := "00";
  type := engine_type;
  family := "Other";
  description := "";
  displacement := 1.5%float;
  cylinders := 3;
  fuel_type := "Other"
|}.

(** A [VINDecoder] whose [VIN_STRUCTURE] has lost its ["engine_code"]
    entry, as a subclass that overrides the attribute might. *)
Definition VINDecoder_no_engine_field : VINDecoder := {|
  MB_MANUFACTURER_CODES := MB_MANUFACTURER_CODES VINDecoder_cls;
  VIN_STRUCTURE := [
    ("manufacturer", (0, 3)%Z);
    ("model_series", (3, 6)%Z);
    ("model_details", (8, 9)%Z);
    ("model_year", (9, 10)%Z);
    ("plant_code", (10, 11)%Z);
    ("serial_number", (11, 17)%Z)
  ];
  ENGINE_CODES := ENGINE_CODES VINDecoder_cls
|}.

(** ** Examples *)

Example decode_example :
  decode_vin VINDecoder_cls (PyStr "WDD2050421A123456") =
  Ok {| vin := "WDD2050421A123456"; manufacturer := "WDD"; model_series := "205";
        engine_code := "04"; model_details := "2"; model_year := "1";
        plant_code := "A"; serial_number := "123456"; engine := None |}.
Proof. vm_compute. reflexivity. Qed.

Example decode_example_engine :
  engine <$> decode_vin VINDecoder_cls (PyStr "WDD2054221A123456") =
  Ok (Some engine_42).
Proof. vm_compute. reflexivity. Qed.

Example find_oil_example :
  find_oil_by_engine OilFinder_cls (Some engine_64) =
  Ok {| primary := spec_229_5; alternatives := [spec_229_3] |}.
Proof. vm_compute. reflexivity. Qed.

(** ** Strings and slices *)

Lemma str_any_Exists (p : ascii → bool) (s : string) :
  str_any p s = true ↔ Exists (λ c, p c = true) (chars s).
Proof.
  induction s as [|c s IH]; simpl.
  - split; [discriminate | intros H; inversion H].
  - rewrite Exists_cons, orb_true_iff, IH. reflexivity.
Qed.

Lemma char_in_IOQ (c : ascii) : char_in c "IOQ" = true ↔ forbidden c.
Proof.
  unfold char_in, forbidden; simpl.
  rewrite !orb_true_iff, !bool_decide_eq_true. intuition congruence.
Qed.

Lemma forbidden_check_true (s : string) :
  str_any (λ c, char_in c "IOQ") s = true ↔ Exists forbidden (chars s).
Proof.
  rewrite str_any_Exists.
  split; intros H; (eapply Exists_impl; [exact H|]); intros c; apply char_in_IOQ.
Qed.

Lemma forbidden_check_false (s : string) :
  str_any (λ c, char_in c "IOQ") s = false ↔ Forall (λ c, ¬ forbidden c) (chars s).
Proof.
  rewrite <- not_true_iff_false, forbidden_check_true.
  rewrite <- Forall_Exists_neg. reflexivity.
Qed.

Lemma slice_in_range (s : string) (a b : Z) :
  (0 ≤ a ≤ b)%Z → (b ≤ Z.of_nat (String.length s))%Z →
  slice s a b = substring (Z.to_nat a) (Z.to_nat b - Z.to_nat a) s.
Proof.
  intros Hab Hb. unfold slice, slice_index.
  destruct (Z.ltb_spec a 0), (Z.ltb_spec b 0); try lia.
  rewrite !Z.min_l by lia. f_equal. lia.
Qed.

Lemma substring_nil (n m : nat) : substring n m "" = "".
Proof. destruct n, m; reflexivity. Qed.

Lemma substring_split (s : string) (a n m : nat) :
  substring a n s ++ substring (a + n) m s = substring a (n + m) s.
Proof.
  revert a n. induction s as [|c s IH]; intros a n.
  - rewrite !substring_nil. reflexivity.
  - destruct a as [|a]; simpl.
    + destruct n as [|n]; simpl.
      * reflexivity.
      * change (String c (substring 0 n s ++ substring (0 + n) m s) =
                String c (substring 0 (n + m) s)).
        f_equal. apply IH.
    + apply IH.
Qed.

Lemma substring_join (s : string) (a n b m k : nat) :
  b = a + n → k = n + m →
  substring a n s ++ substring b m s = substring a k s.
Proof. intros -> ->. apply substring_split. Qed.

Lemma substring_all (s : string) : substring 0 (String.length s) s = s.
Proof. induction s as [|c s IH]; simpl; [reflexivity | now f_equal]. Qed.

(** ** The decoder *)

Lemma validate_vin_Ok (self : VINDecoder) (v : pyobj) (b : bool) :
  validate_vin self v = Ok b →
  ∃ s, v = PyStr s ∧ String.length s = 17 ∧
       Forall (λ c, ¬ forbidden c) (chars s) ∧
       substring 0 3 s ∈ MB_MANUFACTURER_CODES self ∧ b = true.
Proof.
  destruct v as [s| | |]; simpl; try discriminate.
  case_bool_decide; [discriminate|].
  destruct (Nat.eqb_spec (String.length s) 17) as [Hlen|]; simpl; [|discriminate].
  destruct (str_any _ s) eqn:Hany; [discriminate|].
  case_bool_decide as Hm; simpl; [|discriminate].
  intros [= <-]. exists s. split_and!; try done.
  - by apply forbidden_check_false.
  - rewrite slice_in_range in Hm by lia. exact Hm.
Qed.

Lemma validate_vin_pass (self : VINDecoder) (s : string) :
  String.length s = 17 →
  Forall (λ c, ¬ forbidden c) (chars s) →
  substring 0 3 s ∈ MB_MANUFACTURER_CODES self →
  validate_vin self (PyStr s) = Ok true.
Proof.
  intros Hlen Hchars Hm. simpl.
  case_bool_decide as He; [subst s; discriminate|].
  rewrite Hlen; simpl.
  apply forbidden_check_false in Hchars. rewrite Hchars.
  rewrite slice_in_range by lia.
  by rewrite bool_decide_true.
Qed.

(** With the offsets of the class, a validated VIN decodes to its seven
    slices and the engine found for the third of them. *)
Lemma decode_vin_valid (self : VINDecoder) (s : string) :
  VIN_STRUCTURE self = VIN_STRUCTURE VINDecoder_cls →
  validate_vin self (PyStr s) = Ok true →
  decode_vin self (PyStr s) =
  Ok {| vin := s;
        manufacturer := substring 0 3 s;
        model_series := substring 3 3 s;
        engine_code := substring 6 2 s;
        model_details := substring 8 1 s;
        model_year := substring 9 1 s;
        plant_code := substring 10 1 s;
        serial_number := substring 11 6 s;
        engine := ENGINE_CODES self !! substring 6 2 s |}.
Proof.
  intros Hstruct Hvalid.
  destruct (validate_vin_Ok _ _ _ Hvalid) as (s' & [= <-] & Hlen & _).
  unfold decode_vin. rewrite Hvalid. simpl.
  unfold components_of. rewrite Hstruct. simpl.
  rewrite !slice_in_range by lia.
  unfold getitem, _get_engine_data. simpl.
  by simplify_map_eq.
Qed.

Lemma decode_vin_Ok_validated (self : VINDecoder) (v : pyobj) (r : VINData) :
  decode_vin self v = Ok r → validate_vin self v = Ok true.
Proof.
  unfold decode_vin. destruct (validate_vin self v) as [b|e] eqn:Hv; [|discriminate].
  intros _. by destruct (validate_vin_Ok _ _ _ Hv) as (_ & _ & _ & _ & _ & ->).
Qed.

Lemma decode_vin_propagates (self : VINDecoder) (v : pyobj) (e : exn) :
  validate_vin self v = Raise e → decode_vin self v = Raise e.
Proof. unfold decode_vin. by intros ->. Qed.

(** C3: when [decode_vin] succeeds on a VIN, the seven positional fields
    of the record are the slices at positions 0-3, 3-6, 6-8, 8-9, 9-10,
    10-11 and 11-17 of the VIN, and their concatenation in field order is
    the VIN itself (which the record also keeps verbatim). *)
Theorem decode_vin_roundtrip (s : string) (r : VINData) :
  decode_vin VINDecoder_cls (PyStr s) = Ok r →
  vin r = s ∧
  manufacturer r = substring 0 3 s ∧
  model_series r = substring 3 3 s ∧
  engine_code r = substring 6 2 s ∧
  model_details r = substring 8 1 s ∧
  model_year r = substring 9 1 s ∧
  plant_code r = substring 10 1 s ∧
  serial_number r = substring 11 6 s ∧
  manufacturer r ++ model_series r ++ engine_code r ++ model_details r ++
    model_year r ++ plant_code r ++ serial_number r = s.
Proof.
  intros Hdec. pose proof (decode_vin_Ok_validated _ _ _ Hdec) as Hvalid.
  destruct (validate_vin_Ok _ _ _ Hvalid) as (s' & [= <-] & Hlen & _).
  rewrite (decode_vin_valid _ s eq_refl Hvalid) in Hdec.
  injection Hdec as <-. simpl. split_and!; try reflexivity.
  rewrite (substring_join s 10 1 11 6 7), (substring_join s 9 1 10 7 8),
    (substring_join s 8 1 9 8 9), (substring_join s 6 2 8 9 11),
    (substring_join s 3 3 6 11 14), (substring_join s 0 3 3 14 17)
    by reflexivity.
  rewrite <- Hlen. apply substring_all.
Qed.

Lemma decode_vin_roundtrip_witness :
  ∃ r, decode_vin VINDecoder_cls (PyStr "WDD2050421A123456") = Ok r ∧
       manufacturer r ++ model_series r ++ engine_code r ++ model_details r ++
         model_year r ++ plant_code r ++ serial_number r = "WDD2050421A123456".
Proof.
  eexists. split; [vm_compute; reflexivity|].
  eapply (decode_vin_roundtrip "WDD2050421A123456"). vm_compute. reflexivity.
Defined.

(** C4: [validate_vin] raises the error of the first check that fails, in
    the order empty or not a string, wrong length, forbidden character,
    manufacturer prefix.  The first three raise [InvalidVINError], each
    with its own message; [UnsupportedVehicleError], a class that neither
    is nor extends [InvalidVINError], is raised only for a string of 17
    characters without forbidden character.  So a 17-character string
    with a forbidden character raises [InvalidVINError] whatever its
    prefix.  [decode_vin] raises whatever [validate_vin] raises. *)
Theorem validate_vin_error_order (self : VINDecoder) (v : pyobj) :
  ((∀ s, v = PyStr s → s = "") →
     validate_vin self v = Raise (Exn InvalidVINError msg_not_a_string)) ∧
  (∀ s, v = PyStr s → s ≠ "" → String.length s ≠ 17 →
     validate_vin self v = Raise (Exn InvalidVINError msg_length)) ∧
  (∀ s, v = PyStr s → String.length s = 17 → Exists forbidden (chars s) →
     validate_vin self v = Raise (Exn InvalidVINError msg_characters)) ∧
  (∀ s, v = PyStr s → String.length s = 17 →
     Forall (λ c, ¬ forbidden c) (chars s) →
     substring 0 3 s ∉ MB_MANUFACTURER_CODES self →
     validate_vin self v =
     Raise (Exn UnsupportedVehicleError (msg_manufacturer (substring 0 3 s)))) ∧
  (raises (validate_vin self v) UnsupportedVehicleError →
     ∃ s, v = PyStr s ∧ String.length s = 17 ∧
          Forall (λ c, ¬ forbidden c) (chars s) ∧
          substring 0 3 s ∉ MB_MANUFACTURER_CODES self) ∧
  (∀ e, validate_vin self v = Raise e → decode_vin self v = Raise e) ∧
  issubclass UnsupportedVehicleError InvalidVINError = false ∧
  issubclass InvalidVINError UnsupportedVehicleError = false.
Proof.
  split_and!; try reflexivity.
  - intros Hempty. destruct v as [s| | |]; try reflexivity.
    rewrite (Hempty s eq_refl). reflexivity.
  - intros s -> Hne Hlen. simpl.
    rewrite bool_decide_false by done.
    by destruct (Nat.eqb_spec (String.length s) 17).
  - intros s -> Hlen Hforb. simpl.
    case_bool_decide; [subst s; discriminate|].
    rewrite Hlen. simpl.
    apply forbidden_check_true in Hforb. by rewrite Hforb.
  - intros s -> Hlen Hchars Hm. simpl.
    case_bool_decide; [subst s; discriminate|].
    rewrite Hlen. simpl.
    apply forbidden_check_false in Hchars. rewrite Hchars.
    rewrite slice_in_range by lia.
    by rewrite bool_decide_false.
  - intros [msg Hraise]. destruct v as [s| | |]; try discriminate.
    exists s. simpl in Hraise.
    case_bool_decide; [discriminate|].
    destruct (Nat.eqb_spec (String.length s) 17) as [Hlen|]; [|discriminate].
    simpl in Hraise. destruct (str_any _ s) eqn:Hany; [discriminate|].
    rewrite slice_in_range in Hraise by lia.
    case_bool_decide; [discriminate|].
    split_and!; try done. by apply forbidden_check_false.
  - apply decode_vin_propagates.
Qed.

Lemma validate_vin_error_order_witness :
  validate_vin VINDecoder_cls (PyStr "1HGCM82633A12345Q") =
    Raise (Exn InvalidVINError msg_characters) ∧
  decode_vin VINDecoder_cls (PyStr "1HGCM82633A12345Q") =
    Raise (Exn InvalidVINError msg_characters).
Proof.
  destruct (validate_vin_error_order VINDecoder_cls (PyStr "1HGCM82633A12345Q"))
    as (_ & _ & Hchars & _ & _ & Hdecode & _).
  assert (validate_vin VINDecoder_cls (PyStr "1HGCM82633A12345Q") =
          Raise (Exn InvalidVINError msg_characters)) as Hv.
  { apply (Hchars "1HGCM82633A12345Q"); [reflexivity | reflexivity |].
    apply forbidden_check_true. vm_compute. reflexivity. }
  split; [exact Hv | exact (Hdecode _ Hv)].
Defined.

(** C5: [decode_vin] does not fail for want of engine metadata.  For a
    decoder with the class's field offsets (and any manufacturer list and
    engine table), a VIN that passes [validate_vin] and whose engine-code
    slice has no entry in [ENGINE_CODES] decodes to a record whose
    [engine] is [None]; no exception is raised. *)
Theorem decode_vin_missing_engine (self : VINDecoder) (s : string) :
  VIN_STRUCTURE self = VIN_STRUCTURE VINDecoder_cls →
  validate_vin self (PyStr s) = Ok true →
  ENGINE_CODES self !! substring 6 2 s = None →
  ∃ r, decode_vin self (PyStr s) = Ok r ∧
       engine_code r = substring 6 2 s ∧ engine r = None ∧
       ∀ c, ¬ raises (decode_vin self (PyStr s)) c.
Proof.
  intros Hstruct Hvalid Hnone.
  rewrite (decode_vin_valid self s Hstruct Hvalid), Hnone.
  eexists. split_and!; try reflexivity.
  intros c [msg Hraise]. discriminate.
Qed.

Lemma decode_vin_missing_engine_witness :
  ∃ r, decode_vin VINDecoder_cls (PyStr "WDD2050421A123456") = Ok r ∧
       engine_code r = "04" ∧ engine r = None.
Proof.
  destruct (decode_vin_missing_engine VINDecoder_cls "WDD2050421A123456")
    as (r & Hdec & Hcode & Hengine & _);
    [reflexivity | vm_compute; reflexivity | vm_compute; reflexivity |].
  exists r. split_and!; [exact Hdec | exact Hcode | exact Hengine].
Defined.

(** C9: validation tests the characters only against I, O and Q.  Every
    string of 17 characters whose first three are a manufacturer code of
    the class and which contains none of I, O, Q passes [validate_vin]
    and is decoded by [decode_vin], whatever other characters it holds:
    a dollar sign, lower-case letters or a blank, as in the instance
    below. *)
Theorem validate_vin_checks_only_IOQ (s : string) :
  String.length s = 17 →
  substring 0 3 s ∈ MB_MANUFACTURER_CODES VINDecoder_cls →
  Forall (λ c, ¬ forbidden c) (chars s) →
  validate_vin VINDecoder_cls (PyStr s) = Ok true ∧
  ∃ r, decode_vin VINDecoder_cls (PyStr s) = Ok r ∧ vin r = s.
Proof.
  intros Hlen Hm Hchars.
  pose proof (validate_vin_pass VINDecoder_cls s Hlen Hchars Hm) as Hvalid.
  split; [exact Hvalid|].
  rewrite (decode_vin_valid _ s eq_refl Hvalid). eexists. split; reflexivity.
Qed.

Lemma validate_vin_checks_only_IOQ_witness :
  validate_vin VINDecoder_cls (PyStr "WDD$oiq wdd 1~#a!") = Ok true ∧
  ∃ r, decode_vin VINDecoder_cls (PyStr "WDD$oiq wdd 1~#a!") = Ok r ∧
       vin r = "WDD$oiq wdd 1~#a!".
Proof.
  apply (validate_vin_checks_only_IOQ "WDD$oiq wdd 1~#a!").
  - reflexivity.
  - vm_compute. set_solver.
  - apply forbidden_check_false. vm_compute. reflexivity.
Defined.

(** ** The oil finder *)

Lemma collect_alternatives_from (self : OilFinder) (codes : list string)
    (acc : list OilSpecification) :
  foldl (λ alternative_specs alt_code,
           match OIL_SPECIFICATIONS self !! alt_code with
           | Some alt_spec => (alternative_specs ++ [alt_spec])%list
           | None => alternative_specs
           end) acc codes
  = (acc ++ omap (λ alt_code, OIL_SPECIFICATIONS self !! alt_code) codes)%list.
Proof.
  revert acc. induction codes as [|c codes IH]; intros acc; simpl.
  - by rewrite app_nil_r.
  - rewrite IH. destruct (OIL_SPECIFICATIONS self !! c); [|reflexivity].
    by rewrite <- app_assoc.
Qed.

Lemma collect_alternatives_omap (self : OilFinder) (codes : list string) :
  collect_alternatives self codes =
  omap (λ alt_code, OIL_SPECIFICATIONS self !! alt_code) codes.
Proof. apply (collect_alternatives_from self codes []). Qed.

(** What [find_oil_by_engine] returns once type and primary resolve. *)
Lemma find_oil_by_engine_resolved (self : OilFinder) (e : EngineData)
    (p : OilPolicy) (ps : OilSpecification) :
  type e ≠ "" →
  ENGINE_OIL_MAPPING self !! type e = Some p →
  OIL_SPECIFICATIONS self !! primary_code p = Some ps →
  find_oil_by_engine self (Some e) =
  Ok {| primary := ps;
        alternatives := collect_alternatives self (alternative_codes p) |}.
Proof.
  intros Htype Hp Hps. unfold find_oil_by_engine.
  rewrite bool_decide_false by done. by rewrite Hp, Hps.
Qed.

(** Whatever [find_oil_by_engine] returns came from a policy. *)
Lemma find_oil_by_engine_Ok (self : OilFinder) (engine_data : option EngineData)
    (r : OilRecommendation) :
  find_oil_by_engine self engine_data = Ok r →
  ∃ e p, engine_data = Some e ∧ type e ≠ "" ∧
         ENGINE_OIL_MAPPING self !! type e = Some p ∧
         OIL_SPECIFICATIONS self !! primary_code p = Some (primary r) ∧
         alternatives r = collect_alternatives self (alternative_codes p).
Proof.
  unfold find_oil_by_engine. destruct engine_data as [e|]; [|discriminate].
  case_bool_decide as Htype; [discriminate|].
  destruct (ENGINE_OIL_MAPPING self !! type e) as [p|] eqn:Hp; [|discriminate].
  destruct (OIL_SPECIFICATIONS self !! primary_code p) as [ps|] eqn:Hps;
    [|discriminate].
  intros [= <-]. exists e, p. by split_and!.
Qed.

(** C6: once the engine type has a policy and the policy's primary
    resolves, [find_oil_by_engine] succeeds, and the alternatives of the
    recommendation are the specifications of those alternative codes of
    the policy that the approval table holds, in the policy's order; a
    code the table lacks is skipped and raises nothing. *)
Theorem find_oil_by_engine_alternatives (self : OilFinder) (e : EngineData)
    (p : OilPolicy) (ps : OilSpecification) :
  type e ≠ "" →
  ENGINE_OIL_MAPPING self !! type e = Some p →
  OIL_SPECIFICATIONS self !! primary_code p = Some ps →
  find_oil_by_engine self (Some e) =
  Ok {| primary := ps;
        alternatives :=
          omap (λ alt_code, OIL_SPECIFICATIONS self !! alt_code)
               (alternative_codes p) |}.
Proof.
  intros Htype Hp Hps.
  rewrite (find_oil_by_engine_resolved self e p ps Htype Hp Hps).
  by rewrite collect_alternatives_omap.
Qed.

Lemma find_oil_by_engine_alternatives_witness :
  find_oil_by_engine OilFinder_incomplete (Some (engine_of_type "M999")) =
  Ok {| primary := spec_229_5; alternatives := [spec_229_3; spec_229_1] |}.
Proof.
  apply (find_oil_by_engine_alternatives OilFinder_incomplete
           (engine_of_type "M999")
           {| primary_code := "229.5";
              alternative_codes := ["229.31"; "229.3"; "229.99"; "229.1"] |}
           spec_229_5).
  - discriminate.
  - vm_compute. reflexivity.
  - vm_compute. reflexivity.
Defined.

(** C10: [find_oil_by_engine] reads only the [type] of the engine data.
    Two engine data with the same [type] get the same recommendation, or
    the same exception with the same message, whatever their [code],
    [family], [description], [displacement], [cylinders] and [fuel_type];
    this holds for every table, and for the empty [type] too. *)
Theorem find_oil_by_engine_depends_on_type (self : OilFinder)
    (e1 e2 : EngineData) :
  type e1 = type e2 →
  find_oil_by_engine self (Some e1) = find_oil_by_engine self (Some e2).
Proof. intros Htype. unfold find_oil_by_engine. by rewrite Htype. Qed.

Lemma find_oil_by_engine_depends_on_type_witness :
  find_oil_by_engine OilFinder_cls (Some engine_42) =
  find_oil_by_engine OilFinder_cls (Some (engine_of_type "OM651")).
Proof.
  apply (find_oil_by_engine_depends_on_type OilFinder_cls engine_42
           (engine_of_type "OM651")).
  reflexivity.
Defined.

(** C8: for engine data of type ["OM651"], [find_oil_by_engine] of the
    class succeeds; the primary has approval ["229.51"] and the
    alternatives have approvals ["229.5"] then ["229.3"]. *)
Theorem find_oil_by_engine_OM651 (e : EngineData) :
  type e = "OM651" →
  find_oil_by_engine OilFinder_cls (Some e) =
    Ok {| primary := spec_229_51; alternatives := [spec_229_5; spec_229_3] |} ∧
  mb_approval spec_229_51 = "229.51" ∧
  mb_approval <$> [spec_229_5; spec_229_3] = ["229.5"; "229.3"].
Proof.
  intros Htype. split_and!; try reflexivity.
  unfold find_oil_by_engine. rewrite Htype. vm_compute. reflexivity.
Qed.

Lemma find_oil_by_engine_OM651_witness :
  find_oil_by_engine OilFinder_cls (Some engine_42) =
  Ok {| primary := spec_229_51; alternatives := [spec_229_5; spec_229_3] |}.
Proof. apply (find_oil_by_engine_OM651 engine_42). reflexivity. Defined.

(** *** Distinct alternatives *)

Section Distinct.

Variable self : OilFinder.
Hypothesis Hkeyed : keyed_by_approval self.

Lemma resolved_elem_of (s : OilSpecification) (codes : list string) :
  s ∈ omap (λ alt_code, OIL_SPECIFICATIONS self !! alt_code) codes →
  mb_approval s ∈ codes.
Proof.
  rewrite list_elem_of_omap. intros (c & Hc & Hs).
  by rewrite (Hkeyed c s Hs).
Qed.

Lemma resolved_NoDup (codes : list string) :
  NoDup codes →
  NoDup (omap (λ alt_code, OIL_SPECIFICATIONS self !! alt_code) codes).
Proof.
  induction 1 as [|c codes Hnotin Hnodup IH]; simpl; [constructor|].
  destruct (OIL_SPECIFICATIONS self !! c) as [s|] eqn:Hs; [|exact IH].
  constructor; [|exact IH].
  intros Hin. apply resolved_elem_of in Hin.
  by rewrite (Hkeyed c s Hs) in Hin.
Qed.

(** With an approval table keyed by approval and policies that repeat
    nothing, no recommendation repeats a specification. *)
Lemma find_oil_by_engine_distinct (engine_data : option EngineData)
    (r : OilRecommendation) :
  policies_distinct self →
  find_oil_by_engine self engine_data = Ok r →
  NoDup (alternatives r) ∧ primary r ∉ alternatives r.
Proof.
  intros Hpol Hfind.
  destruct (find_oil_by_engine_Ok _ _ _ Hfind)
    as (e & p & _ & _ & Hp & Hps & ->).
  destruct (Hpol _ _ Hp) as [Hnodup Hnotin].
  rewrite collect_alternatives_omap. split.
  - by apply resolved_NoDup.
  - intros Hin. apply resolved_elem_of in Hin.
    by rewrite (Hkeyed _ _ Hps) in Hin.
Qed.

End Distinct.

Lemma OilFinder_cls_keyed : keyed_by_approval OilFinder_cls.
Proof.
  intros c s. unfold OilFinder_cls; simpl. intros H.
  repeat (apply lookup_insert_Some in H as [[<- <-]|[_ H]]; [reflexivity|]).
  by rewrite lookup_empty in H.
Qed.

Lemma OilFinder_cls_policies : policies_distinct OilFinder_cls.
Proof.
  intros t p. unfold OilFinder_cls; simpl. intros H.
  repeat (apply lookup_insert_Some in H as [[_ <-]|[_ H]];
          [split; apply (bool_decide_unpack _); vm_compute; exact I|]).
  by rewrite lookup_empty in H.
Qed.

(** C7: in every recommendation that [find_oil_by_engine] of the class
    returns, the alternatives hold no specification twice and do not hold
    the primary. *)
Theorem find_oil_by_engine_no_duplicates (engine_data : option EngineData)
    (r : OilRecommendation) :
  find_oil_by_engine OilFinder_cls engine_data = Ok r →
  NoDup (alternatives r) ∧ primary r ∉ alternatives r.
Proof.
  apply find_oil_by_engine_distinct.
  - apply OilFinder_cls_keyed.
  - apply OilFinder_cls_policies.
Qed.

Lemma find_oil_by_engine_no_duplicates_witness :
  NoDup [spec_229_5; spec_229_3] ∧ spec_229_51 ∉ [spec_229_5; spec_229_3].
Proof.
  apply (find_oil_by_engine_no_duplicates (Some engine_42)
           {| primary := spec_229_51;
              alternatives := [spec_229_5; spec_229_3] |}).
  vm_compute. reflexivity.
Defined.

(** The distinctness is a property of the tables, not of the loop: a
    policy that repeats a code gets its specification twice. *)
Example find_oil_by_engine_repeating :
  find_oil_by_engine OilFinder_repeating (Some engine_64) =
  Ok {| primary := spec_229_5;
        alternatives := [spec_229_3; spec_229_5; spec_229_3] |}.
Proof. vm_compute. reflexivity. Qed.

(** C1, the claim as stated fails: when the primary approval of a policy
    is missing from the approval table, the exception raised is of class
    [NoOilRecommendationError], the class raised for an engine type
    without policy, and of no other class.  Here ["OM999"] has a policy
    whose primary ["229.52"] the table lacks, and ["UNKNOWN"] has no
    policy. *)
Lemma find_oil_by_engine_primary_missing_same_class :
  (∃ p, ENGINE_OIL_MAPPING OilFinder_incomplete !! "OM999" = Some p ∧
        OIL_SPECIFICATIONS OilFinder_incomplete !! primary_code p = None) ∧
  ENGINE_OIL_MAPPING OilFinder_incomplete !! "UNKNOWN" = None ∧
  find_oil_by_engine OilFinder_incomplete (Some (engine_of_type "OM999")) =
    Raise (Exn NoOilRecommendationError
               "Primary oil specification not found: 229.52") ∧
  find_oil_by_engine OilFinder_incomplete (Some (engine_of_type "UNKNOWN")) =
    Raise (Exn NoOilRecommendationError
               "No oil recommendation for engine type: UNKNOWN") ∧
  ¬ ∃ c, c ≠ NoOilRecommendationError ∧
         raises (find_oil_by_engine OilFinder_incomplete
                   (Some (engine_of_type "OM999"))) c.
Proof.
  split_and!.
  - eexists. split; vm_compute; reflexivity.
  - vm_compute. reflexivity.
  - vm_compute. reflexivity.
  - vm_compute. reflexivity.
  - intros (c & Hc & msg & Hraise). vm_compute in Hraise. congruence.
Qed.

(** C1, amended: when the engine type has a policy whose primary approval
    is missing from the approval table, [find_oil_by_engine] raises (it
    does not return a recommendation without primary).  The exception is
    a [NoOilRecommendationError], the class also raised for an engine
    type without policy; the two failures differ in their message only. *)
Theorem find_oil_by_engine_primary_missing (self : OilFinder) (e : EngineData)
    (p : OilPolicy) :
  type e ≠ "" →
  ENGINE_OIL_MAPPING self !! type e = Some p →
  OIL_SPECIFICATIONS self !! primary_code p = None →
  find_oil_by_engine self (Some e) =
    Raise (Exn NoOilRecommendationError
               (msg_primary_not_found (primary_code p))) ∧
  ∀ e', type e' ≠ "" → ENGINE_OIL_MAPPING self !! type e' = None →
        find_oil_by_engine self (Some e') =
          Raise (Exn NoOilRecommendationError (msg_no_recommendation (type e'))) ∧
        msg_no_recommendation (type e') ≠ msg_primary_not_found (primary_code p).
Proof.
  intros Htype Hp Hps. split.
  - unfold find_oil_by_engine.
    rewrite bool_decide_false by done. by rewrite Hp, Hps.
  - intros e' Htype' Hnone. split; [|discriminate].
    unfold find_oil_by_engine.
    rewrite bool_decide_false by done. by rewrite Hnone.
Qed.

Lemma find_oil_by_engine_primary_missing_witness :
  find_oil_by_engine OilFinder_incomplete (Some (engine_of_type "OM999")) =
  Raise (Exn NoOilRecommendationError (msg_primary_not_found "229.52")).
Proof.
  apply (find_oil_by_engine_primary_missing OilFinder_incomplete
           (engine_of_type "OM999")
           {| primary_code := "229.52"; alternative_codes := ["229.5"] |}).
  - discriminate.
  - vm_compute. reflexivity.
  - vm_compute. reflexivity.
Defined.

(** ** Further properties of the decoder *)

Lemma substring_length (s : string) (a n : nat) :
  (a + n ≤ String.length s)%nat → String.length (substring a n s) = n.
Proof.
  revert a n. induction s as [|c s IH]; intros a n; simpl.
  - intros Hle. assert (a = 0 ∧ n = 0) as [-> ->] by lia. reflexivity.
  - destruct a as [|a]; simpl.
    + destruct n as [|n]; simpl; [reflexivity|].
      intros Hle. f_equal. apply (IH 0 n). lia.
    + intros Hle. apply IH. lia.
Qed.

Lemma validate_vin_Raise_class (self : VINDecoder) (v : pyobj) (e : exn) :
  validate_vin self v = Raise e →
  exn_cls e = InvalidVINError ∨ exn_cls e = UnsupportedVehicleError.
Proof.
  destruct v as [s| | |]; simpl; try (intros [= <-]; by left).
  repeat (case_match; try discriminate); intros [= <-]; simpl; auto.
Qed.

(** X1: [validate_vin] returns a value exactly for a [str] of 17
    characters, none of them I, O or Q, whose first three characters are
    a manufacturer code; the value is then [True].  It never returns
    [False]: every other input raises. *)
Theorem validate_vin_accepts_iff (self : VINDecoder) (v : pyobj) (b : bool) :
  validate_vin self v = Ok b ↔
  b = true ∧
  ∃ s, v = PyStr s ∧ String.length s = 17 ∧
       Forall (λ c, ¬ forbidden c) (chars s) ∧
       substring 0 3 s ∈ MB_MANUFACTURER_CODES self.
Proof.
  split.
  - intros Hv. destruct (validate_vin_Ok _ _ _ Hv) as (s & -> & Hl & Hc & Hm & ->).
    split; [reflexivity|]. by exists s.
  - intros (-> & s & -> & Hl & Hc & Hm). by apply validate_vin_pass.
Qed.

Lemma validate_vin_accepts_iff_witness :
  validate_vin VINDecoder_cls (PyStr "4JG2050421A123456") = Ok true.
Proof.
  apply (validate_vin_accepts_iff VINDecoder_cls (PyStr "4JG2050421A123456") true).
  split; [reflexivity|]. exists "4JG2050421A123456".
  split_and!; [reflexivity | reflexivity | |].
  - apply forbidden_check_false. vm_compute. reflexivity.
  - apply (bool_decide_unpack _). vm_compute. exact I.
Defined.

(** X2: with the field offsets of the class, [decode_vin] returns a
    record exactly for the inputs [validate_vin] accepts: nothing after
    validation can fail, whatever the engine table holds. *)
Theorem decode_vin_succeeds_iff_valid (self : VINDecoder) (v : pyobj) :
  VIN_STRUCTURE self = VIN_STRUCTURE VINDecoder_cls →
  (∃ r, decode_vin self v = Ok r) ↔ validate_vin self v = Ok true.
Proof.
  intros Hstruct. split.
  - intros [r Hdec]. by apply decode_vin_Ok_validated in Hdec.
  - intros Hvalid.
    destruct (validate_vin_Ok _ _ _ Hvalid) as (s & -> & _).
    rewrite (decode_vin_valid self s Hstruct Hvalid). by eexists.
Qed.

Lemma decode_vin_succeeds_iff_valid_witness :
  ∃ r, decode_vin VINDecoder_cls (PyStr "WMX2056421A123456") = Ok r.
Proof.
  apply (decode_vin_succeeds_iff_valid VINDecoder_cls (PyStr "WMX2056421A123456"));
    [reflexivity | vm_compute; reflexivity].
Defined.

(** X3: with the field offsets of the class, whatever [decode_vin] raises
    was raised by [validate_vin].  It is an [InvalidVINError] or an
    [UnsupportedVehicleError], so an [except VINDecoderError] (or [except
    MBOilFinderError]) clause catches it; a [KeyError] or a [TypeError]
    never escapes. *)
Theorem decode_vin_raises_only_validation_errors (self : VINDecoder)
    (v : pyobj) (e : exn) :
  VIN_STRUCTURE self = VIN_STRUCTURE VINDecoder_cls →
  decode_vin self v = Raise e →
  validate_vin self v = Raise e ∧
  (exn_cls e = InvalidVINError ∨ exn_cls e = UnsupportedVehicleError) ∧
  issubclass (exn_cls e) VINDecoderError = true ∧
  issubclass (exn_cls e) MBOilFinderError = true ∧
  exn_cls e ≠ KeyError ∧ exn_cls e ≠ TypeError.
Proof.
  intros Hstruct Hdec.
  destruct (validate_vin self v) as [b|e'] eqn:Hv.
  - destruct (validate_vin_Ok _ _ _ Hv) as (s & -> & _ & _ & _ & ->).
    rewrite (decode_vin_valid self s Hstruct Hv) in Hdec. discriminate.
  - rewrite (decode_vin_propagates _ _ _ Hv) in Hdec. injection Hdec as <-.
    split; [reflexivity|].
    destruct (validate_vin_Raise_class _ _ _ Hv) as [Hc|Hc];
      rewrite Hc; split_and!; auto; discriminate.
Qed.

Lemma decode_vin_raises_only_validation_errors_witness :
  validate_vin VINDecoder_cls (PyStr "1HGCM82633A123456") =
    Raise (Exn UnsupportedVehicleError (msg_manufacturer "1HG")) ∧
  issubclass UnsupportedVehicleError VINDecoderError = true.
Proof.
  destruct (decode_vin_raises_only_validation_errors VINDecoder_cls
              (PyStr "1HGCM82633A123456")
              (Exn UnsupportedVehicleError (msg_manufacturer "1HG")))
    as (Hv & _ & Hsub & _); [reflexivity | vm_compute; reflexivity |].
  split; [exact Hv | exact Hsub].
Defined.

(** X4: in a record [decode_vin] of the class returns, the fields have
    3, 3, 2, 1, 1, 1 and 6 characters, and the VIN it keeps has 17. *)
Theorem decode_vin_field_lengths (s : string) (r : VINData) :
  decode_vin VINDecoder_cls (PyStr s) = Ok r →
  String.length (vin r) = 17 ∧
  String.length (manufacturer r) = 3 ∧
  String.length (model_series r) = 3 ∧
  String.length (engine_code r) = 2 ∧
  String.length (model_details r) = 1 ∧
  String.length (model_year r) = 1 ∧
  String.length (plant_code r) = 1 ∧
  String.length (serial_number r) = 6.
Proof.
  intros Hdec. pose proof (decode_vin_Ok_validated _ _ _ Hdec) as Hvalid.
  destruct (validate_vin_Ok _ _ _ Hvalid) as (s' & [= <-] & Hlen & _).
  rewrite (decode_vin_valid _ s eq_refl Hvalid) in Hdec.
  injection Hdec as <-. simpl.
  split_and!; [exact Hlen | apply substring_length; lia ..].
Qed.

Lemma decode_vin_field_lengths_witness :
  ∃ r, decode_vin VINDecoder_cls (PyStr "WDD2050421A123456") = Ok r ∧
       String.length (engine_code r) = 2 ∧ String.length (serial_number r) = 6.
Proof.
  eexists. split; [vm_compute; reflexivity|].
  destruct (decode_vin_field_lengths "WDD2050421A123456" _ eq_refl)
    as (_ & _ & _ & He & _ & _ & _ & Hs).
  split; [exact He | exact Hs].
Defined.

(** X5: with the field offsets of the class, the [manufacturer] of a
    decoded record is one of the decoder's manufacturer codes, and the
    VIN the record keeps holds none of I, O, Q. *)
Theorem decode_vin_manufacturer_supported (self : VINDecoder) (s : string)
    (r : VINData) :
  VIN_STRUCTURE self = VIN_STRUCTURE VINDecoder_cls →
  decode_vin self (PyStr s) = Ok r →
  manufacturer r ∈ MB_MANUFACTURER_CODES self ∧
  Forall (λ c, ¬ forbidden c) (chars (vin r)).
Proof.
  intros Hstruct Hdec. pose proof (decode_vin_Ok_validated _ _ _ Hdec) as Hvalid.
  destruct (validate_vin_Ok _ _ _ Hvalid) as (s' & [= <-] & _ & Hchars & Hm & _).
  rewrite (decode_vin_valid self s Hstruct Hvalid) in Hdec.
  injection Hdec as <-. simpl. by split.
Qed.

Lemma decode_vin_manufacturer_supported_witness :
  ∃ r, decode_vin VINDecoder_cls (PyStr "WDC1569421J123456") = Ok r ∧
       manufacturer r ∈ MB_MANUFACTURER_CODES VINDecoder_cls.
Proof.
  eexists. split; [vm_compute; reflexivity|].
  apply (decode_vin_manufacturer_supported VINDecoder_cls "WDC1569421J123456");
    reflexivity.
Defined.

(** X6: in a record [decode_vin] of the class returns, the engine data is
    present exactly when the engine code is ["42"] or ["64"], and the
    [code] of the engine data is then the [engine_code] of the record. *)
Theorem decode_vin_engine_matches_code (s : string) (r : VINData) :
  decode_vin VINDecoder_cls (PyStr s) = Ok r →
  (is_Some (engine r) ↔ engine_code r = "42" ∨ engine_code r = "64") ∧
  ∀ e, engine r = Some e → code e = engine_code r.
Proof.
  intros Hdec. pose proof (decode_vin_Ok_validated _ _ _ Hdec) as Hvalid.
  rewrite (decode_vin_valid _ s eq_refl Hvalid) in Hdec.
  injection Hdec as <-. simpl. split.
  - split.
    + intros [e He].
      apply lookup_insert_Some in He as [[<- _]|[_ He]]; [by left|].
      apply lookup_insert_Some in He as [[<- _]|[_ He]]; [by right|].
      by rewrite lookup_empty in He.
    + intros [-> | ->]; by eexists.
  - intros e He.
    apply lookup_insert_Some in He as [[<- <-]|[_ He]]; [reflexivity|].
    apply lookup_insert_Some in He as [[<- <-]|[_ He]]; [reflexivity|].
    by rewrite lookup_empty in He.
Qed.

Lemma decode_vin_engine_matches_code_witness :
  ∃ r, decode_vin VINDecoder_cls (PyStr "WDD2056421A123456") = Ok r ∧
       engine r = Some engine_64 ∧ code engine_64 = engine_code r.
Proof.
  eexists. split; [vm_compute; reflexivity|].
  split; [reflexivity|].
  apply (decode_vin_engine_matches_code "WDD2056421A123456"); reflexivity.
Defined.

Lemma components_fold_lookup_None (s name : string)
    (structure : list (string * (Z * Z))) (m : gmap string string) :
  m !! name = None → name ∉ structure.*1 →
  foldl (λ components '(name, (start, stop)),
           <[name := slice s start stop]> components) m structure !! name = None.
Proof.
  revert m. induction structure as [|[n [a b]] structure IH]; intros m Hm Hnot.
  - exact Hm.
  - simpl in *. apply not_elem_of_cons in Hnot as [Hne Hnot].
    apply IH; [|exact Hnot]. by rewrite lookup_insert_ne.
Qed.

(** X7: the field names are looked up in the dict built from
    [VIN_STRUCTURE].  On a decoder whose [VIN_STRUCTURE] has no
    ["engine_code"] entry, a VIN that passes validation is not decoded:
    [decode_vin] raises [KeyError] for that key. *)
Theorem decode_vin_missing_field (self : VINDecoder) (s : string) :
  validate_vin self (PyStr s) = Ok true →
  "engine_code" ∉ (VIN_STRUCTURE self).*1 →
  decode_vin self (PyStr s) = Raise (Exn KeyError "engine_code").
Proof.
  intros Hvalid Hnot.
  assert (getitem (components_of self s) "engine_code" =
          Raise (Exn KeyError "engine_code")) as Hget.
  { unfold getitem, components_of. by rewrite components_fold_lookup_None. }
  unfold decode_vin. rewrite Hvalid. simpl.
  fold (components_of self s). by rewrite Hget.
Qed.

Lemma decode_vin_missing_field_witness :
  decode_vin VINDecoder_no_engine_field (PyStr "WDD2050421A123456") =
  Raise (Exn KeyError "engine_code").
Proof.
  apply (decode_vin_missing_field VINDecoder_no_engine_field "WDD2050421A123456").
  - vm_compute. reflexivity.
  - apply (bool_decide_unpack _). vm_compute. exact I.
Defined.

(** ** Further properties of the oil finder *)

(** The causes of an exception of [find_oil_by_engine]. *)
Lemma find_oil_by_engine_Raise (self : OilFinder)
    (engine_data : option EngineData) (e : exn) :
  find_oil_by_engine self engine_data = Raise e →
  exn_cls e = NoOilRecommendationError ∧
  ((exn_msg e = msg_invalid_engine ∧
    (engine_data = None ∨ ∃ en, engine_data = Some en ∧ type en = "")) ∨
   (∃ en, engine_data = Some en ∧ type en ≠ "" ∧
          ENGINE_OIL_MAPPING self !! type en = None ∧
          exn_msg e = msg_no_recommendation (type en)) ∨
   (∃ en p, engine_data = Some en ∧ type en ≠ "" ∧
            ENGINE_OIL_MAPPING self !! type en = Some p ∧
            OIL_SPECIFICATIONS self !! primary_code p = None ∧
            exn_msg e = msg_primary_not_found (primary_code p))).
Proof.
  unfold find_oil_by_engine. destruct engine_data as [en|].
  - case_bool_decide as Htype.
    + intros [= <-]. split; [reflexivity|]. left. split; [reflexivity|].
      right. by exists en.
    + destruct (ENGINE_OIL_MAPPING self !! type en) as [p|] eqn:Hp.
      * destruct (OIL_SPECIFICATIONS self !! primary_code p) as [ps|] eqn:Hps;
          [discriminate|].
        intros [= <-]. split; [reflexivity|]. right. right.
        exists en, p. by split_and!.
      * intros [= <-]. split; [reflexivity|]. right. left.
        exists en. by split_and!.
  - intros [= <-]. split; [reflexivity|]. left. split; [reflexivity|].
    by left.
Qed.

(** X8: whatever [find_oil_by_engine] raises is a
    [NoOilRecommendationError] (so [except OilFinderError] and [except
    MBOilFinderError] catch it, and [except VINDecoderError] does not),
    for every pair of tables, and its message tells the cause: missing
    engine data or empty type, engine type without policy, or primary
    approval missing from the table. *)
Theorem find_oil_by_engine_raises_only (self : OilFinder)
    (engine_data : option EngineData) (e : exn) :
  find_oil_by_engine self engine_data = Raise e →
  exn_cls e = NoOilRecommendationError ∧
  issubclass (exn_cls e) OilFinderError = true ∧
  issubclass (exn_cls e) MBOilFinderError = true ∧
  issubclass (exn_cls e) VINDecoderError = false ∧
  ((exn_msg e = msg_invalid_engine ∧
    (engine_data = None ∨ ∃ en, engine_data = Some en ∧ type en = "")) ∨
   (∃ en, engine_data = Some en ∧ type en ≠ "" ∧
          ENGINE_OIL_MAPPING self !! type en = None ∧
          exn_msg e = msg_no_recommendation (type en)) ∨
   (∃ en p, engine_data = Some en ∧ type en ≠ "" ∧
            ENGINE_OIL_MAPPING self !! type en = Some p ∧
            OIL_SPECIFICATIONS self !! primary_code p = None ∧
            exn_msg e = msg_primary_not_found (primary_code p))).
Proof.
  intros Hfind.
  destruct (find_oil_by_engine_Raise _ _ _ Hfind) as [Hcls Hmsg].
  rewrite Hcls. by split_and!.
Qed.

Lemma find_oil_by_engine_raises_only_witness :
  issubclass NoOilRecommendationError OilFinderError = true ∧
  issubclass NoOilRecommendationError VINDecoderError = false.
Proof.
  destruct (find_oil_by_engine_raises_only OilFinder_cls
              (Some (engine_of_type "UNKNOWN"))
              (Exn NoOilRecommendationError (msg_no_recommendation "UNKNOWN")))
    as (_ & Hsub & _ & Hnot & _); [vm_compute; reflexivity|].
  split; [exact Hsub | exact Hnot].
Defined.

(** X9: [find_oil_by_engine] returns a recommendation exactly when the
    engine data is present, its type is not empty and has a policy, and
    the primary approval of the policy is in the approval table; the
    alternatives play no part in it. *)
Theorem find_oil_by_engine_succeeds_iff (self : OilFinder)
    (engine_data : option EngineData) :
  (∃ r, find_oil_by_engine self engine_data = Ok r) ↔
  ∃ e p, engine_data = Some e ∧ type e ≠ "" ∧
         ENGINE_OIL_MAPPING self !! type e = Some p ∧
         is_Some (OIL_SPECIFICATIONS self !! primary_code p).
Proof.
  split.
  - intros [r Hfind].
    destruct (find_oil_by_engine_Ok _ _ _ Hfind) as (e & p & -> & Ht & Hp & Hps & _).
    exists e, p. by split_and!.
  - intros (e & p & -> & Ht & Hp & [ps Hps]).
    rewrite (find_oil_by_engine_resolved self e p ps Ht Hp Hps). by eexists.
Qed.

Lemma find_oil_by_engine_succeeds_iff_witness :
  ∃ r, find_oil_by_engine OilFinder_incomplete (Some (engine_of_type "M999")) = Ok r.
Proof.
  apply (find_oil_by_engine_succeeds_iff OilFinder_incomplete
           (Some (engine_of_type "M999"))).
  exists (engine_of_type "M999"),
    {| primary_code := "229.5";
       alternative_codes := ["229.31"; "229.3"; "229.99"; "229.1"] |}.
  split_and!; [reflexivity | discriminate | vm_compute; reflexivity |].
  exists spec_229_5. vm_compute. reflexivity.
Defined.

Lemma resolved_approvals_sublist (self : OilFinder) (codes : list string) :
  keyed_by_approval self →
  mb_approval <$> omap (λ alt_code, OIL_SPECIFICATIONS self !! alt_code) codes
    `sublist_of` codes.
Proof.
  intros Hkeyed. induction codes as [|c codes IH]; simpl; [constructor|].
  destruct (OIL_SPECIFICATIONS self !! c) as [s|] eqn:Hs; simpl.
  - rewrite (Hkeyed c s Hs). by apply sublist_skip.
  - by apply sublist_cons.
Qed.

Lemma resolved_approvals_all (self : OilFinder) (codes : list string) :
  keyed_by_approval self →
  Forall (λ c, is_Some (OIL_SPECIFICATIONS self !! c)) codes →
  mb_approval <$> omap (λ alt_code, OIL_SPECIFICATIONS self !! alt_code) codes
    = codes.
Proof.
  intros Hkeyed. induction 1 as [|c codes [s Hs] _ IH]; simpl; [reflexivity|].
  rewrite Hs. simpl. f_equal; [by apply Hkeyed | exact IH].
Qed.

(** X10: when every specification is stored under its own approval, the
    approvals of a recommendation are those of the policy: the primary
    has the policy's primary code, and the approvals of the alternatives
    are the policy's alternative codes with some of them left out, the
    rest in order; none is left out when all of them are in the table. *)
Theorem find_oil_by_engine_approvals (self : OilFinder) (e : EngineData)
    (p : OilPolicy) (r : OilRecommendation) :
  keyed_by_approval self →
  ENGINE_OIL_MAPPING self !! type e = Some p →
  find_oil_by_engine self (Some e) = Ok r →
  mb_approval (primary r) = primary_code p ∧
  mb_approval <$> alternatives r `sublist_of` alternative_codes p ∧
  (Forall (λ c, is_Some (OIL_SPECIFICATIONS self !! c)) (alternative_codes p) →
   mb_approval <$> alternatives r = alternative_codes p).
Proof.
  intros Hkeyed Hp Hfind.
  destruct (find_oil_by_engine_Ok _ _ _ Hfind)
    as (e' & p' & [= <-] & _ & Hp' & Hps & ->).
  rewrite Hp in Hp'. injection Hp' as <-.
  rewrite collect_alternatives_omap. split_and!.
  - by apply Hkeyed.
  - by apply resolved_approvals_sublist.
  - by apply resolved_approvals_all.
Qed.

Lemma find_oil_by_engine_approvals_witness :
  mb_approval <$> [spec_229_3; spec_229_1]
    `sublist_of` ["229.31"; "229.3"; "229.99"; "229.1"].
Proof.
  apply (find_oil_by_engine_approvals OilFinder_incomplete
           (engine_of_type "M999")
           {| primary_code := "229.5";
              alternative_codes := ["229.31"; "229.3"; "229.99"; "229.1"] |}
           {| primary := spec_229_5;
              alternatives := [spec_229_3; spec_229_1] |}).
  - apply OilFinder_cls_keyed.
  - vm_compute. reflexivity.
  - vm_compute. reflexivity.
Defined.

(** X11: [find_oil_by_vin] returns a recommendation exactly when the VIN
    data carries engine data for which [find_oil_by_engine] returns it. *)
Theorem find_oil_by_vin_succeeds_iff (self : OilFinder)
    (vin_data : option VINData) (r : OilRecommendation) :
  find_oil_by_vin self vin_data = Ok r ↔
  ∃ v e, vin_data = Some v ∧ engine v = Some e ∧
         find_oil_by_engine self (Some e) = Ok r.
Proof.
  unfold find_oil_by_vin. split.
  - destruct vin_data as [v|]; [|discriminate].
    destruct (engine v) as [e|] eqn:He; [|discriminate].
    intros Hfind. by exists v, e.
  - intros (v & e & -> & -> & Hfind). exact Hfind.
Qed.

Lemma find_oil_by_vin_succeeds_iff_witness :
  find_oil_by_vin OilFinder_cls
    (Some {| vin := "WDD2056421A123456"; manufacturer := "WDD";
             model_series := "205"; engine_code := "64"; model_details := "2";
             model_year := "1"; plant_code := "A"; serial_number := "123456";
             engine := Some engine_64 |}) =
  Ok {| primary := spec_229_5; alternatives := [spec_229_3] |}.
Proof.
  apply find_oil_by_vin_succeeds_iff.
  eexists _, engine_64. split_and!; [reflexivity | reflexivity |].
  vm_compute. reflexivity.
Defined.

(** X12: whatever [find_oil_by_vin] raises is a
    [NoOilRecommendationError].  Either the VIN data is [None] or has no
    engine data, and the message says that the VIN data holds no engine
    information; or it is the exception [find_oil_by_engine] raises for
    the engine data, with another message. *)
Theorem find_oil_by_vin_raises_only (self : OilFinder)
    (vin_data : option VINData) (e : exn) :
  find_oil_by_vin self vin_data = Raise e →
  exn_cls e = NoOilRecommendationError ∧
  (((vin_data = None ∨ ∃ v, vin_data = Some v ∧ engine v = None) ∧
    exn_msg e = msg_no_engine) ∨
   (∃ v en, vin_data = Some v ∧ engine v = Some en ∧
            find_oil_by_engine self (Some en) = Raise e ∧
            exn_msg e ≠ msg_no_engine)).
Proof.
  unfold find_oil_by_vin. destruct vin_data as [v|].
  - destruct (engine v) as [en|] eqn:Hen.
    + intros Hfind.
      destruct (find_oil_by_engine_Raise _ _ _ Hfind) as (Hcls & Hmsg).
      split; [exact Hcls|]. right. exists v, en. split_and!; try done.
      destruct Hmsg as [[-> _]|[(en' & _ & _ & _ & ->)|(en' & p & _ & _ & _ & _ & ->)]];
        discriminate.
    + intros [= <-]. split; [reflexivity|]. left. split; [|reflexivity].
      right. by exists v.
  - intros [= <-]. split; [reflexivity|]. left. split; [|reflexivity]. by left.
Qed.

Lemma find_oil_by_vin_raises_only_witness :
  find_oil_by_vin OilFinder_cls
    (Some {| vin := "WDD2050421A123456"; manufacturer := "WDD";
             model_series := "205"; engine_code := "04"; model_details := "2";
             model_year := "1"; plant_code := "A"; serial_number := "123456";
             engine := None |}) =
    Raise (Exn NoOilRecommendationError msg_no_engine) ∧
  exn_cls (Exn NoOilRecommendationError msg_no_engine) = NoOilRecommendationError.
Proof.
  split; [vm_compute; reflexivity|].
  eapply (find_oil_by_vin_raises_only OilFinder_cls
            (Some {| vin := "WDD2050421A123456"; manufacturer := "WDD";
                     model_series := "205"; engine_code := "04";
                     model_details := "2"; model_year := "1"; plant_code := "A";
                     serial_number := "123456"; engine := None |})).
  vm_compute. reflexivity.
Defined.

(** X13: [find_oil_by_vin] reads nothing of the VIN data but the type of
    its engine data: two VIN data whose engine data have the same type
    get the same result, whatever their VIN and positional fields. *)
Theorem find_oil_by_vin_depends_on_engine_type (self : OilFinder)
    (v1 v2 : VINData) (e1 e2 : EngineData) :
  engine v1 = Some e1 → engine v2 = Some e2 → type e1 = type e2 →
  find_oil_by_vin self (Some v1) = find_oil_by_vin self (Some v2).
Proof.
  intros H1 H2 Htype. unfold find_oil_by_vin, find_oil_by_engine.
  by rewrite H1, H2, Htype.
Qed.

Lemma find_oil_by_vin_depends_on_engine_type_witness :
  find_oil_by_vin OilFinder_cls
    (Some {| vin := "WDD2054221A123456"; manufacturer := "WDD";
             model_series := "205"; engine_code := "42"; model_details := "2";
             model_year := "1"; plant_code := "A"; serial_number := "123456";
             engine := Some engine_42 |}) =
  find_oil_by_vin OilFinder_cls
    (Some {| vin := "WDC1564291J654321"; manufacturer := "WDC";
             model_series := "156"; engine_code := "42"; model_details := "9";
             model_year := "1"; plant_code := "J"; serial_number := "654321";
             engine := Some (engine_of_type "OM651") |}).
Proof.
  apply (find_oil_by_vin_depends_on_engine_type OilFinder_cls _ _
           engine_42 (engine_of_type "OM651")); reflexivity.
Defined.

(** X14: the whole of [find_oil_by_engine] on the tables of the class, as
    a function of the engine type: ["OM651"] and ["M276"] get their
    recommendation, the empty type is invalid engine data, every other
    type has no recommendation.  The failure for a primary approval
    missing from the table cannot happen with these tables. *)
Theorem find_oil_by_engine_cls_cases (e : EngineData) :
  find_oil_by_engine OilFinder_cls (Some e) =
  if decide (type e = "OM651") then
    Ok {| primary := spec_229_51; alternatives := [spec_229_5; spec_229_3] |}
  else if decide (type e = "M276") then
    Ok {| primary := spec_229_5; alternatives := [spec_229_3] |}
  else if decide (type e = "") then
    Raise (Exn NoOilRecommendationError msg_invalid_engine)
  else
    Raise (Exn NoOilRecommendationError (msg_no_recommendation (type e))).
Proof.
  unfold find_oil_by_engine.
  destruct (decide (type e = "OM651")) as [->|Hom]; [vm_compute; reflexivity|].
  destruct (decide (type e = "M276")) as [->|Hm]; [vm_compute; reflexivity|].
  destruct (decide (type e = "")) as [->|He]; [vm_compute; reflexivity|].
  rewrite bool_decide_false by done.
  unfold OilFinder_cls at 1; simpl.
  by rewrite !lookup_insert_ne, lookup_empty by done.
Qed.

(** X15: decoding a VIN with the class tables and handing the record to
    [find_oil_by_vin]: a record for engine code ["42"] gets the OM651
    recommendation, one for ["64"] the M276 recommendation, and any other
    record, which has no engine data, raises [NoOilRecommendationError]
    with the message that the VIN data holds no engine information. *)
Theorem decode_then_find_oil (s : string) (r : VINData) :
  decode_vin VINDecoder_cls (PyStr s) = Ok r →
  find_oil_by_vin OilFinder_cls (Some r) =
  if decide (substring 6 2 s = "42") then
    Ok {| primary := spec_229_51; alternatives := [spec_229_5; spec_229_3] |}
  else if decide (substring 6 2 s = "64") then
    Ok {| primary := spec_229_5; alternatives := [spec_229_3] |}
  else
    Raise (Exn NoOilRecommendationError msg_no_engine).
Proof.
  intros Hdec. pose proof (decode_vin_Ok_validated _ _ _ Hdec) as Hvalid.
  rewrite (decode_vin_valid _ s eq_refl Hvalid) in Hdec.
  injection Hdec as <-. unfold find_oil_by_vin; simpl.
  destruct (decide (substring 6 2 s = "42")) as [->|H42]; [vm_compute; reflexivity|].
  destruct (decide (substring 6 2 s = "64")) as [->|H64]; [vm_compute; reflexivity|].
  by rewrite !lookup_insert_ne, lookup_empty by done.
Qed.

Lemma decode_then_find_oil_witness :
  ∃ r, decode_vin VINDecoder_cls (PyStr "WDD2054221A123456") = Ok r ∧
       find_oil_by_vin OilFinder_cls (Some r) =
       Ok {| primary := spec_229_51; alternatives := [spec_229_5; spec_229_3] |}.
Proof.
  eexists. split; [vm_compute; reflexivity|].
  apply (decode_then_find_oil "WDD2054221A123456"). vm_compute. reflexivity.
Defined.

(** ** The positional fields and the exception classes *)

Lemma vin_fields_join (s : string) :
  String.length s = 17 →
  substring 0 3 s ++ substring 3 3 s ++ substring 6 2 s ++ substring 8 1 s ++
    substring 9 1 s ++ substring 10 1 s ++ substring 11 6 s = s.
Proof.
  intros Hlen.
  rewrite (substring_join s 10 1 11 6 7), (substring_join s 9 1 10 7 8),
    (substring_join s 8 1 9 8 9), (substring_join s 6 2 8 9 11),
    (substring_join s 3 3 6 11 14), (substring_join s 0 3 3 14 17)
    by reflexivity.
  rewrite <- Hlen. apply substring_all.
Qed.

(** X16: decoding loses nothing.  Two records that [decode_vin] of the
    class returns and that agree on the seven positional fields come from
    the same VIN, and are the same record. *)
Theorem decode_vin_fields_determine_vin (s1 s2 : string) (r1 r2 : VINData) :
  decode_vin VINDecoder_cls (PyStr s1) = Ok r1 →
  decode_vin VINDecoder_cls (PyStr s2) = Ok r2 →
  manufacturer r1 = manufacturer r2 →
  model_series r1 = model_series r2 →
  engine_code r1 = engine_code r2 →
  model_details r1 = model_details r2 →
  model_year r1 = model_year r2 →
  plant_code r1 = plant_code r2 →
  serial_number r1 = serial_number r2 →
  s1 = s2 ∧ r1 = r2.
Proof.
  intros Hdec1 Hdec2.
  pose proof (decode_vin_Ok_validated _ _ _ Hdec1) as Hv1.
  pose proof (decode_vin_Ok_validated _ _ _ Hdec2) as Hv2.
  destruct (validate_vin_Ok _ _ _ Hv1) as (? & [= <-] & Hlen1 & _).
  destruct (validate_vin_Ok _ _ _ Hv2) as (? & [= <-] & Hlen2 & _).
  rewrite (decode_vin_valid _ s1 eq_refl Hv1) in Hdec1.
  rewrite (decode_vin_valid _ s2 eq_refl Hv2) in Hdec2.
  injection Hdec1 as <-. injection Hdec2 as <-. simpl.
  intros Hm Hs He Hd Hy Hp Hn.
  assert (s1 = s2) as ->; [|done].
  rewrite <- (vin_fields_join s1 Hlen1), <- (vin_fields_join s2 Hlen2).
  by rewrite Hm, Hs, He, Hd, Hy, Hp, Hn.
Qed.

Lemma decode_vin_fields_determine_vin_witness :
  "WDD2054221A123456" = "WDD2054221A123456" ∧
  ∃ r, decode_vin VINDecoder_cls (PyStr "WDD2054221A123456") = Ok r.
Proof.
  split; [|eexists; vm_compute; reflexivity].
  eapply (decode_vin_fields_determine_vin "WDD2054221A123456" "WDD2054221A123456");
    [vm_compute; reflexivity | vm_compute; reflexivity | reflexivity ..].
Defined.

(** X17: the classes of [exceptions.py].  An [except MBOilFinderError]
    clause catches the seven classes of the package and no built-in one;
    [except VINDecoderError] catches that class, [InvalidVINError] and
    [UnsupportedVehicleError]; [except OilFinderError] catches that class
    and [NoOilRecommendationError]; [EngineDataError] is caught by neither
    of the two, only by its own clause and [except MBOilFinderError]. *)
Theorem exception_hierarchy (c : exn_class) :
  issubclass c Exception = true ∧
  issubclass c MBOilFinderError =
    bool_decide (c ∈ [MBOilFinderError; VINDecoderError; InvalidVINError;
                      UnsupportedVehicleError; OilFinderError;
                      NoOilRecommendationError; EngineDataError]) ∧
  issubclass c VINDecoderError =
    bool_decide (c ∈ [VINDecoderError; InvalidVINError; UnsupportedVehicleError]) ∧
  issubclass c OilFinderError =
    bool_decide (c ∈ [OilFinderError; NoOilRecommendationError]) ∧
  issubclass c EngineDataError = bool_decide (c = EngineDataError).
Proof. destruct c; vm_compute; by split_and!. Qed.

(** ** The engine lookup *)

(** The classes of the exceptions [decode_vin] can raise, for any
    decoder: those of [validate_vin], and [KeyError] for a field name
    that [VIN_STRUCTURE] lacks. *)
Lemma decode_vin_Raise_class (self : VINDecoder) (v : pyobj) (e : exn) :
  decode_vin self v = Raise e →
  exn_cls e = InvalidVINError ∨ exn_cls e = UnsupportedVehicleError ∨
  exn_cls e = KeyError.
Proof.
  unfold decode_vin. destruct (validate_vin self v) as [b|e'] eqn:Hv.
  - destruct (validate_vin_Ok _ _ _ Hv) as (s & -> & _). simpl.
    unfold getitem, _get_engine_data.
    repeat (case_match; simpl; try discriminate);
      intros [= <-]; simpl; auto.
  - simpl. intros [= <-].
    destruct (validate_vin_Raise_class _ _ _ Hv) as [->| ->]; auto.
Qed.

(** C2: what the package does for an engine code without metadata.  Its
    engine lookup, [_get_engine_data], returns the table entry of a code
    that has one and [None] for any other code, such as ["99"]; it does
    not raise.  Nor does any other method signal a missing engine code:
    [validate_vin], [decode_vin], [find_oil_by_engine] and
    [find_oil_by_vin] never raise [EngineDataError], the one class of
    [exceptions.py] for engine data, on any input and with any tables. *)
Theorem engine_lookup_never_raises (self : VINDecoder) (finder : OilFinder)
    (engine_code0 : string) (v : pyobj) (engine_data : option EngineData)
    (vin_data : option VINData) :
  (∀ e, ENGINE_CODES self !! engine_code0 = Some e →
        _get_engine_data self engine_code0 = Ok (Some e)) ∧
  (ENGINE_CODES self !! engine_code0 = None →
        _get_engine_data self engine_code0 = Ok None) ∧
  (∀ c, ¬ raises (_get_engine_data self engine_code0) c) ∧
  ¬ raises (validate_vin self v) EngineDataError ∧
  ¬ raises (decode_vin self v) EngineDataError ∧
  ¬ raises (find_oil_by_engine finder engine_data) EngineDataError ∧
  ¬ raises (find_oil_by_vin finder vin_data) EngineDataError.
Proof.
  split_and!.
  - unfold _get_engine_data. by intros e ->.
  - unfold _get_engine_data. by intros ->.
  - intros c [msg Hraise]. discriminate.
  - intros [msg Hraise].
    destruct (validate_vin_Raise_class _ _ _ Hraise); discriminate.
  - intros [msg Hraise].
    destruct (decode_vin_Raise_class _ _ _ Hraise) as [|[|]]; discriminate.
  - intros [msg Hraise].
    destruct (find_oil_by_engine_Raise _ _ _ Hraise) as [? _]. discriminate.
  - intros [msg Hraise]. unfold find_oil_by_vin in Hraise.
    destruct vin_data as [vd|]; [|discriminate].
    destruct (engine vd) as [en|]; [|discriminate].
    destruct (find_oil_by_engine_Raise _ _ _ Hraise) as [? _]. discriminate.
Qed.

Lemma engine_lookup_never_raises_witness :
  ENGINE_CODES VINDecoder_cls !! "99" = None ∧
  _get_engine_data VINDecoder_cls "99" = Ok None.
Proof.
  split; [reflexivity|].
  apply (engine_lookup_never_raises VINDecoder_cls OilFinder_cls "99"
           (PyStr "WDD2059921A123456") None None).
  reflexivity.
Defined.
